(** * get_bitwig_device_uuids.py: the device-UUID collector

    A shallow embedding of [src/get_bitwig_device_uuids.py].  The script is a
    sequence of console writes, console reads, clipboard reads and one file
    write; it is embedded in a small state-and-exception monad over a [world]
    record that holds the console, the clipboard and the file system.

    Python strings are sequences of Unicode code points; the library
    functions the script calls ([str.strip], [str.lower], [json.dumps],
    [input], [print], [pyperclip.paste], [open]) are modelled after CPython's
    documented behaviour.

    The console encodes in UTF-8: [print] raises [UnicodeEncodeError] on a
    text that holds a surrogate code point, which a clipboard text can.  The
    other texts the script prints (its own literals, the catalog names, the
    count, the JSON text, the text of a [UnicodeEncodeError]) hold none, as
    the last section proves, and the text of an exception of
    [pyperclip.paste] is taken to hold none; these are written with
    [print_plain], which cannot fail.

    What the model leaves out: [open(..., 'w')] always succeeds (no I/O
    error of the disk); the text written to the file is the Python-level
    text, before the platform's line-end translation; an interrupt from the
    operator, which is not an [Exception], does not occur. *)

From Stdlib Require Import List NArith Arith Bool Lia String Ascii.
From Stdlib Require Import DecimalPos DecimalN.
Import ListNotations.
Local Open Scope N_scope.

(** ** Python [str] *)

(** A [str] is a sequence of code points. *)
Definition pystr := list N.

(** An ASCII literal as a [str]. *)
Definition lit (s : string) : pystr :=
  map N_of_ascii (list_ascii_of_string s).

(** [a == b] on [str]. *)
Fixpoint str_eqb (a b : pystr) : bool :=
  match a, b with
  | [], [] => true
  | x :: a', y :: b' => (x =? y) && str_eqb a' b'
  | _, _ => false
  end.

(** [len(s)] *)
Definition len {A : Type} (l : list A) : N := N.of_nat (List.length l).

(** Truth value of a [str]: non-empty. *)
Definition truthy (s : pystr) : bool :=
  match s with [] => false | _ :: _ => true end.

(** The code points [str.strip()] removes: those for which CPython's
    [Py_UNICODE_ISSPACE] holds. *)
Definition isspace (c : N) : bool :=
  ((9 <=? c) && (c <=? 13)) || ((28 <=? c) && (c <=? 32))
  || (c =? 133) || (c =? 160) || (c =? 5760)
  || ((8192 <=? c) && (c <=? 8202))
  || (c =? 8232) || (c =? 8233) || (c =? 8239) || (c =? 8287) || (c =? 12288).

Fixpoint lstrip (s : pystr) : pystr :=
  match s with
  | c :: s' => if isspace c then lstrip s' else s
  | [] => []
  end.

Definition rstrip (s : pystr) : pystr := rev (lstrip (rev s)).

(** [s.strip()] *)
Definition strip (s : pystr) : pystr := rstrip (lstrip s).

(** [s.startswith(p)], returning the rest of [s] after [p]. *)
Fixpoint strip_prefix (p s : pystr) : option pystr :=
  match p, s with
  | [], _ => Some s
  | x :: p', y :: s' => if x =? y then strip_prefix p' s' else None
  | _ :: _, [] => None
  end.

(** The surrogate code points, which UTF-8 does not encode. *)
Definition is_surrogate (c : N) : bool := (55296 <=? c) && (c <=? 57343).

(** The number of surrogates [s] begins with. *)
Fixpoint leading_surrogates (s : pystr) : N :=
  match s with
  | c :: s' => if is_surrogate c then 1 + leading_surrogates s' else 0
  | [] => 0
  end.

(** What the UTF-8 encoder rejects in a text [s] whose first code point has
    index [i]: the first surrogate, its index, and the index behind the run
    of surrogates that begins there. *)
Fixpoint surrogate_run (s : pystr) (i : N) : option (N * N * N) :=
  match s with
  | [] => None
  | c :: s' =>
      if is_surrogate c then Some (c, i, i + 1 + leading_surrogates s')
      else surrogate_run s' (i + 1)
  end.

(** [str(n)] for a non-negative [int]. *)
Fixpoint digits (u : Decimal.uint) : pystr :=
  match u with
  | Decimal.Nil => []
  | Decimal.D0 u' => 48 :: digits u'
  | Decimal.D1 u' => 49 :: digits u'
  | Decimal.D2 u' => 50 :: digits u'
  | Decimal.D3 u' => 51 :: digits u'
  | Decimal.D4 u' => 52 :: digits u'
  | Decimal.D5 u' => 53 :: digits u'
  | Decimal.D6 u' => 54 :: digits u'
  | Decimal.D7 u' => 55 :: digits u'
  | Decimal.D8 u' => 56 :: digits u'
  | Decimal.D9 u' => 57 :: digits u'
  end.

Definition str_of_int (n : N) : pystr := digits (N.to_uint n).

(** [s.lower()].  On ASCII code points it is the ASCII mapping, written out.
    For the other code points CPython consults the Unicode character
    database (and, for capital sigma, the neighbouring characters); that
    table is not part of the script, so it is a parameter: [tbl before c
    after] is the lower-case expansion of the non-ASCII code point [c] found
    between [before] and [after]. *)
Definition lower_table := pystr -> N -> pystr -> pystr.

Definition ascii_lower (c : N) : N :=
  if (65 <=? c) && (c <=? 90) then c + 32 else c.

Fixpoint lower_from (tbl : lower_table) (before s : pystr) : pystr :=
  match s with
  | [] => []
  | c :: s' =>
      (if c <? 128 then [ascii_lower c] else tbl before c s')
        ++ lower_from tbl (before ++ [c]) s'
  end.

Definition str_lower (tbl : lower_table) (s : pystr) : pystr :=
  lower_from tbl [] s.

(** ** Python [dict] with [str] keys and values

    A [dict] keeps its items in insertion order and holds a key once:
    [d[k] = v] overwrites the value of a key that is present, in place, and
    appends the item otherwise. *)
Definition pydict := list (pystr * pystr).

Definition dict_empty : pydict := [].

Fixpoint dict_get (k : pystr) (d : pydict) : option pystr :=
  match d with
  | [] => None
  | (k', v) :: d' => if str_eqb k' k then Some v else dict_get k d'
  end.

Fixpoint dict_set (k v : pystr) (d : pydict) : pydict :=
  match d with
  | [] => [(k, v)]
  | (k', v') :: d' =>
      if str_eqb k' k then (k', v) :: d' else (k', v') :: dict_set k v d'
  end.

Definition keys (d : pydict) : list pystr := map fst d.
Definition values (d : pydict) : list pystr := map snd d.

(** ** [json.dumps(d, indent=2)] for a [dict] of [str] to [str]

    The defaults apply: [ensure_ascii=True], item separator [","], key
    separator [": "]. *)
Definition hex_digit (n : N) : N := if n <? 10 then 48 + n else 87 + n.

(** [format(n, "04x")] for [n < 0x10000] *)
Definition hex4 (n : N) : pystr :=
  [hex_digit (n / 4096 mod 16); hex_digit (n / 256 mod 16);
   hex_digit (n / 16 mod 16); hex_digit (n mod 16)].

Definition backslash_u (n : N) : pystr := 92 :: 117 :: hex4 n.

(** The replacement of one code point in [py_encode_basestring_ascii]. *)
Definition escape_char (c : N) : pystr :=
  if c =? 34 then [92; 34]
  else if c =? 92 then [92; 92]
  else if c =? 8 then [92; 98]
  else if c =? 12 then [92; 102]
  else if c =? 10 then [92; 110]
  else if c =? 13 then [92; 114]
  else if c =? 9 then [92; 116]
  else if (32 <=? c) && (c <=? 126) then [c]
  else if c <? 65536 then backslash_u c
  else
    let n := c - 65536 in
    backslash_u (N.lor 55296 (N.land (N.shiftr n 10) 1023))
      ++ backslash_u (N.lor 56320 (N.land n 1023)).

Definition encode_basestring_ascii (s : pystr) : pystr :=
  [34] ++ flat_map escape_char s ++ [34].

Definition newline_indent : pystr := [10; 32; 32].

Definition json_item (kv : pystr * pystr) : pystr :=
  encode_basestring_ascii (fst kv) ++ [58; 32] ++ encode_basestring_ascii (snd kv).

Fixpoint json_items (d : pydict) : pystr :=
  match d with
  | [] => []
  | [kv] => json_item kv
  | kv :: d' => json_item kv ++ [44] ++ newline_indent ++ json_items d'
  end.

Definition json_dumps (d : pydict) : pystr :=
  match d with
  | [] => [123; 125]
  | _ :: _ => [123] ++ newline_indent ++ json_items d ++ [10] ++ [125]
  end.

(** ** The world the script runs in *)

(** What the script has sent to the console: a [print]ed line, or the prompt
    text of an [input] call (written without a line end). *)
Inductive out_event : Type :=
| Line (s : pystr)
| Prompt (s : pystr).

(** Outcome of one [pyperclip.paste()] call: the clipboard text, or an
    exception whose [str()] is [detail]. *)
Inductive paste_result : Type :=
| PasteOk (text : pystr)
| PasteErr (detail : pystr).

Definition filesystem := list (pystr * pystr).

Record world : Type := mkWorld {
  stdin : list pystr;               (* lines not yet read *)
  stdout : list out_event;          (* written so far, oldest first *)
  clipboard : nat -> paste_result;  (* outcome of the k-th clipboard read *)
  pastes : nat;                     (* clipboard reads made so far *)
  files : filesystem                (* path and text of each file *)
}.

Definition fs_read (path : pystr) (fs : filesystem) : option pystr :=
  dict_get path fs.

(** [open(path, 'w')] followed by writing [text]: the file is created or
    truncated, so its old text is gone. *)
Definition fs_write (path text : pystr) (fs : filesystem) : filesystem :=
  (path, text) :: filter (fun e => negb (str_eqb (fst e) path)) fs.

(** ** Exceptions and the monad of the script *)

(** [EOFError] comes from [input], [PasteException] from [pyperclip.paste]
    and [UnicodeEncodeError] from [print]: the encoder met the surrogate
    [bad] at index [start] of the text, in a run that ends before index
    [stop]. *)
Inductive exn : Type :=
| EOFError
| PasteException (detail : pystr)
| UnicodeEncodeError (bad start stop : N).

(** [str(e)].  A surrogate is above U+00FF and below U+10000, so that
    CPython writes the character of a [UnicodeEncodeError] as a backslash,
    [u] and four hexadecimal digits. *)
Definition str_of_exn (e : exn) : pystr :=
  match e with
  | EOFError => lit "EOF when reading a line"
  | PasteException detail => detail
  | UnicodeEncodeError bad start stop =>
      if stop =? start + 1 then
        lit "'utf-8' codec can't encode character '" ++ backslash_u bad
          ++ lit "' in position " ++ str_of_int start
          ++ lit ": surrogates not allowed"
      else
        lit "'utf-8' codec can't encode characters in position "
          ++ str_of_int start ++ lit "-" ++ str_of_int (stop - 1)
          ++ lit ": surrogates not allowed"
  end.

Inductive result (A : Type) : Type :=
| Ret (a : A) (w : world)
| Raise (e : exn) (w : world).
Arguments Ret {A} a w.
Arguments Raise {A} e w.

Definition M (A : Type) : Type := world -> result A.

Definition ret {A : Type} (a : A) : M A := fun w => Ret a w.

Definition bind {A B : Type} (m : M A) (f : A -> M B) : M B :=
  fun w =>
    match m w with
    | Ret a w' => f a w'
    | Raise e w' => Raise e w'
    end.

Declare Scope py_scope.
Delimit Scope py_scope with py.
Notation "x <- m ;; k" := (bind m (fun x => k))
  (at level 61, m at next level, right associativity) : py_scope.
Notation "m ;; k" := (bind m (fun _ => k))
  (at level 61, right associativity) : py_scope.

Definition emit (e : out_event) (w : world) : world :=
  mkWorld (stdin w) (stdout w ++ [e]) (clipboard w) (pastes w) (files w).

(** [print(s)]: the text is encoded as a whole before any of it is written,
    so that a text with a surrogate raises [UnicodeEncodeError] and leaves
    the console as it was. *)
Definition print (s : pystr) : M unit :=
  fun w =>
    match surrogate_run s 0 with
    | Some (bad, start, stop) => Raise (UnicodeEncodeError bad start stop) w
    | None => Ret tt (emit (Line s) w)
    end.

(** [print(s)] for a text that holds no surrogate: the write cannot fail. *)
Definition print_plain (s : pystr) : M unit :=
  fun w => Ret tt (emit (Line s) w).

(** [input(prompt)]: the prompt, when there is one, goes to the console; the
    next line of standard input is returned without its line end, and
    [EOFError] is raised when standard input is exhausted. *)
Definition input (prompt : option pystr) : M pystr :=
  fun w =>
    let w1 := match prompt with Some p => emit (Prompt p) w | None => w end in
    match stdin w1 with
    | [] => Raise EOFError w1
    | line :: rest =>
        Ret line (mkWorld rest (stdout w1) (clipboard w1) (pastes w1) (files w1))
    end.

(** [pyperclip.paste()] *)
Definition pyperclip_paste : M pystr :=
  fun w =>
    let w1 := mkWorld (stdin w) (stdout w) (clipboard w) (S (pastes w)) (files w) in
    match clipboard w (pastes w) with
    | PasteOk text => Ret text w1
    | PasteErr detail => Raise (PasteException detail) w1
    end.

(** [with open(path, 'w') as f: json.dump(d, f, indent=2)] *)
Definition dump_to_file (path : pystr) (d : pydict) : M unit :=
  fun w =>
    Ret tt (mkWorld (stdin w) (stdout w) (clipboard w) (pastes w)
              (fs_write path (json_dumps d) (files w))).

(** ** Code that changes a dictionary in place

    [device_uuids] is one object, changed in place by line 71: what an
    exception handler finds in it is what the code before the exception left
    there.  The statements of lines 68-76 are therefore run with the
    dictionary as part of their state, also when they end in an exception. *)
Inductive outcome (A : Type) : Type :=
| Done (a : A) (d : pydict) (w : world)
| Failed (e : exn) (d : pydict) (w : world).
Arguments Done {A} a d w.
Arguments Failed {A} e d w.

Definition MD (A : Type) : Type := pydict -> world -> outcome A.

Definition bind_d {A B : Type} (m : MD A) (f : A -> MD B) : MD B :=
  fun d w =>
    match m d w with
    | Done a d' w' => f a d' w'
    | Failed e d' w' => Failed e d' w'
    end.

(** A statement that does not touch the dictionary. *)
Definition lift {A : Type} (m : M A) : MD A :=
  fun d w =>
    match m w with
    | Ret a w' => Done a d w'
    | Raise e w' => Failed e d w'
    end.

(** [device_uuids[k] = v] *)
Definition setitem (k v : pystr) : MD unit :=
  fun d w => Done tt (dict_set k v d) w.

(** [try: body / except Exception as e: handler e] *)
Definition try_except {A : Type} (body : MD A) (handler : exn -> MD A) : MD A :=
  fun d w =>
    match body d w with
    | Done a d' w' => Done a d' w'
    | Failed e d' w' => handler e d' w'
    end.

(** The statements run on the dictionary [d]; the result is the dictionary
    they leave. *)
Definition on_dict (m : MD unit) (d : pydict) : M pydict :=
  fun w =>
    match m d w with
    | Done _ d' w' => Ret d' w'
    | Failed e _ w' => Raise e w'
    end.

Declare Scope pyd_scope.
Delimit Scope pyd_scope with pyd.
Notation "x <- m ;; k" := (bind_d m (fun x => k))
  (at level 61, m at next level, right associativity) : pyd_scope.
Notation "m ;; k" := (bind_d m (fun _ => k))
  (at level 61, right associativity) : pyd_scope.

(** ** The script *)

Definition BITWIG_DEVICES : list pystr :=
  [ lit "EQ+"; lit "Polysynth"; lit "Phase-4"; lit "FM-4"; lit "Sampler";
    lit "Delay+"; lit "Compressor+"; lit "Limiter"; lit "Reverb"; lit "Chorus";
    lit "Flanger"; lit "Phaser"; lit "Distortion"; lit "Filter+"; lit "Tool";
    lit "Poly Grid"; lit "FX Grid"; lit "Note Grid"; lit "Polymer";
    lit "Drum Machine"; lit "Audio Receiver"; lit "Note Receiver";
    lit "HW Instrument"; lit "Clip Launcher" ].

Definition output_file : pystr := lit "bitwig_device_uuids.json".

(** The console texts.  Code points outside ASCII are written by number:
    8594 is the right arrow, 128204 the pushpin, 9197 and 65039 the
    skip-track sign, 9989 the check mark, 10060 the cross mark. *)
Definition msg_device (device_name : pystr) : pystr :=
  [10; 128204] ++ lit " Device: " ++ device_name.
Definition msg_step1 (device_name : pystr) : pystr :=
  lit "   1. Add '" ++ device_name ++ lit "' to a track in Bitwig".
Definition msg_step2 : pystr :=
  lit "   2. Right-click on it " ++ [8594] ++ lit " 'Copy Device ID'".
Definition msg_step3 : pystr :=
  lit "   3. Press Enter when done (or 's' to skip)".
Definition msg_prompt : pystr := lit "   > ".
Definition msg_skipped (device_name : pystr) : pystr :=
  lit "   " ++ [9197; 65039] ++ lit "  Skipped " ++ device_name.
Definition msg_captured (uuid : pystr) : pystr :=
  lit "   " ++ [9989] ++ lit " Captured: " ++ uuid.
Definition msg_invalid (uuid : pystr) : pystr :=
  lit "   " ++ [10060] ++ lit " Invalid UUID format: " ++ uuid.
Definition msg_error (e : exn) : pystr :=
  lit "   " ++ [10060] ++ lit " Error reading clipboard: " ++ str_of_exn e.
Definition msg_saved (count : N) : pystr :=
  [10; 9989] ++ lit " Saved " ++ str_of_int count ++ lit " UUIDs to " ++ output_file.

Definition banner : list pystr :=
  [ lit "Bitwig Device UUID Extractor";
    repeat 61 50;
    lit "This script requires manual interaction:";
    lit "1. Open Bitwig Studio";
    lit "2. Create a new project";
    lit "3. For each device, add it to a track";
    lit "4. Right-click the device " ++ [8594] ++ lit " Copy Device ID";
    lit "5. The UUID will be automatically captured";
    [];
    lit "Press Enter when ready to start..." ].

(** The UUID format check of line 70: [uuid and len(uuid) == 36]. *)
Definition uuid_format_ok (uuid : pystr) : bool :=
  truthy uuid && (len uuid =? 36).

Local Open Scope py_scope.

Fixpoint print_all (lines : list pystr) : M unit :=
  match lines with
  | [] => ret tt
  | l :: rest => print_plain l ;; print_all rest
  end.

Section Script.

Variable tbl : lower_table.

(** The [try] statement of lines 68-76, on the dictionary [device_uuids].
    The prints of lines 72 and 74 write the clipboard text and can raise;
    like an exception of [pyperclip.paste] this ends in the handler, which
    leaves the dictionary as it finds it. *)
Definition capture (device_name : pystr) : MD unit :=
  (try_except
     (text <- lift pyperclip_paste ;;
      let uuid := strip text in
      if uuid_format_ok uuid then
        setitem device_name uuid ;;
        lift (print (msg_captured uuid))
      else
        lift (print (msg_invalid uuid)))
     (fun e => lift (print_plain (msg_error e))))%pyd.

(** One iteration of the [for] loop (lines 56-76).  [device_uuids] is the
    dictionary before the iteration; the result is the dictionary after. *)
Definition loop_body (device_name : pystr) (device_uuids : pydict) : M pydict :=
  print_plain (msg_device device_name) ;;
  print_plain (msg_step1 device_name) ;;
  print_plain msg_step2 ;;
  print_plain msg_step3 ;;
  user_input <- input (Some msg_prompt) ;;
  if str_eqb (str_lower tbl user_input) (lit "s") then
    print_plain (msg_skipped device_name) ;;
    ret device_uuids
  else
    on_dict (capture device_name) device_uuids.

(** [for device_name in names: ...] *)
Fixpoint for_devices (names : list pystr) (device_uuids : pydict) : M pydict :=
  match names with
  | [] => ret device_uuids
  | device_name :: rest =>
      device_uuids' <- loop_body device_name device_uuids ;;
      for_devices rest device_uuids'
  end.

(** Lines 41-76 of [main]: the banner, the start gate and the loop. *)
Definition collect : M pydict :=
  print_all banner ;;
  _ <- input None ;;
  for_devices BITWIG_DEVICES dict_empty.

(** Lines 79-84 of [main]. *)
Definition save (device_uuids : pydict) : M unit :=
  dump_to_file output_file device_uuids ;;
  print_plain (msg_saved (len device_uuids)) ;;
  print_plain (json_dumps device_uuids).

Definition main : M unit :=
  device_uuids <- collect ;;
  save device_uuids.

End Script.

(** ** Vocabulary of the properties *)

(** A text with a surrogate code point in it. *)
Definition has_surrogate (s : pystr) : bool := existsb is_surrogate s.

(** The line that ends up on the console when the [try] statement prints
    [s]: [s] itself, or the line of the handler when the print fails. *)
Definition reported (s : pystr) : pystr :=
  match surrogate_run s 0 with
  | Some (bad, start, stop) => msg_error (UnicodeEncodeError bad start stop)
  | None => s
  end.



(** What one iteration writes before it reads the operator's line. *)
Definition prologue (device_name : pystr) : list out_event :=
  [ Line (msg_device device_name); Line (msg_step1 device_name);
    Line msg_step2; Line msg_step3; Prompt msg_prompt ].

(** The device a console event announces, when it is the first line of an
    iteration. *)
Definition header_name (e : out_event) : option pystr :=
  match e with
  | Line s => strip_prefix ([10; 128204] ++ lit " Device: ") s
  | Prompt _ => None
  end.

(** The devices announced in a stretch of console output, in order. *)
Fixpoint visited (out : list out_event) : list pystr :=
  match out with
  | [] => []
  | e :: out' =>
      match header_name e with
      | Some device_name => device_name :: visited out'
      | None => visited out'
      end
  end.

(** The shape of the result mapping. *)
Definition well_formed (d : pydict) : Prop :=
  incl (keys d) BITWIG_DEVICES
  /\ NoDup (keys d)
  /\ Forall (fun v => len v = 36) (values d).

(** [d'] keeps every item of [d], in place and unchanged. *)
Definition extends (d d' : pydict) : Prop :=
  exists added, d' = d ++ added.

(** Two worlds hand the script the same console lines and the same
    clipboard outcomes, read after read. *)
Definition same_inputs (w1 w2 : world) : Prop :=
  stdin w1 = stdin w2
  /\ forall k, clipboard w1 (pastes w1 + k)%nat = clipboard w2 (pastes w2 + k)%nat.

(** The value or exception a run ends with, without its world. *)
Definition value_of {A : Type} (r : result A) : A + exn :=
  match r with
  | Ret a _ => inl a
  | Raise e _ => inr e
  end.

(** The validity predicate in the specification's words: the length is
    exactly 36. *)
Definition length_is_36 (s : pystr) : bool := len s =? 36.

(** The skip test in the specification's words: the line trimmed and
    lower-cased is the token [s]. *)
Definition trimmed_skip_token (tbl : lower_table) (line : pystr) : bool :=
  str_eqb (str_lower tbl (strip line)) (lit "s").

(** Data for concrete runs. *)
Definition no_table : lower_table := fun _ c _ => [c].

Definition uuid_example : pystr := lit "123e4567-e89b-12d3-a456-426614174000".

Definition fresh_world (lines : list pystr) (clip : nat -> paste_result) : world :=
  mkWorld lines [] clip 0 [].

(** Two runs end alike: with the same exception, or with the same value in
    worlds that still hand over the same inputs. *)
Definition agree {A : Type} (r1 r2 : result A) : Prop :=
  match r1, r2 with
  | Ret a1 w1, Ret a2 w2 => a1 = a2 /\ same_inputs w1 w2
  | Raise e1 _, Raise e2 _ => e1 = e2
  | _, _ => False
  end.

(** [x in l] and "no name twice" as computations. *)
Fixpoint memb (x : pystr) (l : list pystr) : bool :=
  match l with
  | [] => false
  | y :: l' => str_eqb y x || memb x l'
  end.

Fixpoint distinctb (l : list pystr) : bool :=
  match l with
  | [] => true
  | x :: l' => negb (memb x l') && distinctb l'
  end.

(** Clipboards for concrete runs: a UUID, a UUID with white space around
    it, a text of the wrong length, and a clipboard that cannot be read. *)
Definition clip_uuid : nat -> paste_result := fun _ => PasteOk uuid_example.
Definition clip_padded : nat -> paste_result :=
  fun _ => PasteOk (lit "  " ++ uuid_example ++ [10]).
Definition clip_broken : nat -> paste_result :=
  fun _ => PasteErr (lit "no copy/paste mechanism").

(** 35 letters [x] and the surrogate U+D800: 36 code points that UTF-8
    cannot encode; and that surrogate alone. *)
Definition text_with_surrogate : pystr := repeat 120 35 ++ [55296].
Definition clip_surrogate_uuid : nat -> paste_result :=
  fun _ => PasteOk text_with_surrogate.
Definition clip_lone_surrogate : nat -> paste_result :=
  fun _ => PasteOk [55296].


(** The operator presses Enter at every prompt. *)
Definition enter_lines : list pystr := repeat [] 25.

(** The world a run ends in. *)
Definition world_of {A : Type} (r : result A) : world :=
  match r with
  | Ret _ w => w
  | Raise _ w => w
  end.

(** A first run: Enter at the start gate, Enter for the first device, whose
    UUID is on the clipboard, then [s] for the other 23 devices. *)
Definition first_run_world : world :=
  fresh_world ([] :: [] :: repeat (lit "s") 23) clip_uuid.

(** A second run in the world the first one left, with 25 new console
    lines: Enter at the start gate, then [s] for every device. *)
Definition second_run_world : world :=
  let w := world_of (main no_table first_run_world) in
  mkWorld ([] :: repeat (lit "s") 24) (stdout w) (clipboard w) (pastes w) (files w).

(** A world with a console history, three clipboard reads behind it (all
    failed) and an old output file, which from now on hands over the same
    inputs as [fresh_world enter_lines clip_uuid]. *)
Definition used_world : world :=
  mkWorld enter_lines [Line (lit "earlier output")]
    (fun k => if (k <? 3)%nat then PasteErr (lit "busy") else PasteOk uuid_example)
    3 [(output_file, lit "old text")].

(** ** Vocabulary of the further properties *)

(** The skip test of line 63. *)
Definition is_skip (tbl : lower_table) (line : pystr) : bool :=
  str_eqb (str_lower tbl line) (lit "s").

(** What an iteration records for its device, given the line typed and the
    outcome of the clipboard read that is due then: nothing for a skipped
    item, a failed read or a text of the wrong length, the trimmed text
    otherwise. *)
Definition capture_of (tbl : lower_table) (line : pystr) (r : paste_result) :
  option pystr :=
  if is_skip tbl line then None
  else
    match r with
    | PasteOk text => if len (strip text) =? 36 then Some (strip text) else None
    | PasteErr _ => None
    end.

(** [a] is [b] with some elements left out, the others in their order. *)
Inductive subsequence : list pystr -> list pystr -> Prop :=
| subsequence_nil : subsequence [] []
| subsequence_skip (x : pystr) (a b : list pystr) :
    subsequence a b -> subsequence a (x :: b)
| subsequence_take (x : pystr) (a b : list pystr) :
    subsequence a b -> subsequence (x :: a) (x :: b).

(** The number of clipboard reads that a list of typed lines calls for: one
    per line that is not the skip token. *)
Definition reads_due (tbl : lower_table) (lines : list pystr) : nat :=
  List.length (filter (fun line => negb (is_skip tbl line)) lines).

(** A string that neither begins nor ends with white space. *)
Definition is_trimmed (s : pystr) : bool :=
  match s with
  | [] => true
  | c :: _ => negb (isspace c) && negb (isspace (last s c))
  end.

(** A printable ASCII code point or a line feed. *)
Definition is_plain (c : N) : bool :=
  ((32 <=? c) && (c <=? 126)) || (c =? 10).

(** A console line that reports a capture. *)
Definition is_captured_line (e : out_event) : bool :=
  match e with
  | Line s =>
      match strip_prefix (lit "   " ++ [9989] ++ lit " Captured: ") s with
      | Some _ => true
      | None => false
      end
  | Prompt _ => false
  end.

Definition captured_lines (out : list out_event) : nat :=
  List.length (filter is_captured_line out).

(** A console with 24 lines only: one short of what a full run reads. *)
Definition short_world : world := fresh_world (repeat [] 24) clip_uuid.

(** ** Strings and dictionaries *)

Lemma str_eqb_eq (a b : pystr) : str_eqb a b = true <-> a = b.
Proof.
  revert b. induction a as [|x a IH]; intros [|y b]; simpl; split;
    try congruence; try reflexivity.
  - intros H. apply andb_true_iff in H. destruct H as [Hx Hab].
    apply N.eqb_eq in Hx. apply IH in Hab. congruence.
  - intros H. inversion H; subst. rewrite N.eqb_refl. simpl. now apply IH.
Qed.

Lemma str_eqb_refl (a : pystr) : str_eqb a a = true.
Proof. now apply str_eqb_eq. Qed.

Lemma str_eqb_neq (a b : pystr) : str_eqb a b = false <-> a <> b.
Proof.
  split.
  - intros H E. apply str_eqb_eq in E. congruence.
  - intros H. destruct (str_eqb a b) eqn:E; [|reflexivity].
    apply str_eqb_eq in E. contradiction.
Qed.

Lemma dict_get_None (k : pystr) (d : pydict) :
  dict_get k d = None <-> ~ In k (keys d).
Proof.
  induction d as [|[k' v] d IH]; simpl.
  - tauto.
  - destruct (str_eqb k' k) eqn:E.
    + apply str_eqb_eq in E. split; [discriminate | intros H; exfalso; auto].
    + apply str_eqb_neq in E. rewrite IH. tauto.
Qed.

Lemma dict_set_fresh (k v : pystr) (d : pydict) :
  dict_get k d = None -> dict_set k v d = d ++ [(k, v)].
Proof.
  induction d as [|[k' v'] d IH]; simpl; [reflexivity|].
  destruct (str_eqb k' k); [discriminate|].
  intros H. now rewrite IH.
Qed.

Lemma dict_get_app_l (k v : pystr) (d added : pydict) :
  dict_get k d = Some v -> dict_get k (d ++ added) = Some v.
Proof.
  induction d as [|[k' v'] d IH]; simpl; [discriminate|].
  destruct (str_eqb k' k); auto.
Qed.


Lemma uuid_format_ok_true (s : pystr) : len s = 36 -> uuid_format_ok s = true.
Proof.
  intros H. unfold uuid_format_ok. rewrite H.
  destruct s; [discriminate H | reflexivity].
Qed.

Lemma uuid_format_ok_len (s : pystr) : uuid_format_ok s = true -> len s = 36.
Proof.
  unfold uuid_format_ok. intros H. apply andb_true_iff in H.
  now apply N.eqb_eq.
Qed.

Lemma memb_In (x : pystr) (l : list pystr) : memb x l = true <-> In x l.
Proof.
  induction l as [|y l IH]; simpl; [split; [discriminate | tauto]|].
  rewrite orb_true_iff, IH, str_eqb_eq. tauto.
Qed.

Lemma distinctb_NoDup (l : list pystr) : distinctb l = true -> NoDup l.
Proof.
  induction l as [|x l IH]; simpl; intros H; constructor.
  - apply andb_true_iff in H. destruct H as [H _].
    intros Hin. apply memb_In in Hin. rewrite Hin in H. discriminate.
  - apply IH. apply andb_true_iff in H. tauto.
Qed.

Lemma BITWIG_DEVICES_NoDup : NoDup BITWIG_DEVICES.
Proof. apply distinctb_NoDup. vm_compute. reflexivity. Qed.

Lemma BITWIG_DEVICES_length : List.length BITWIG_DEVICES = 24%nat.
Proof. reflexivity. Qed.

(** ** Texts the console cannot encode *)

Lemma has_surrogate_app (a b : pystr) :
  has_surrogate (a ++ b) = has_surrogate a || has_surrogate b.
Proof. apply existsb_app. Qed.

Lemma surrogate_run_none (s : pystr) (i : N) :
  has_surrogate s = false -> surrogate_run s i = None.
Proof.
  revert i. induction s as [|c s IH]; intros i; simpl; [reflexivity|].
  destruct (is_surrogate c); simpl; [discriminate | apply IH].
Qed.






(** ** One iteration, case by case *)

Section Iteration.

Variable tbl : lower_table.

(** What the [try] statement puts on the console begins with a blank. *)
Lemma reported_hd (s : pystr) : hd 0 s = 32 -> hd 0 (reported s) = 32.
Proof.
  unfold reported. now destruct (surrogate_run s 0) as [[[bad start] stop]|].
Qed.

(** The iteration written as a decision table: what it returns and the
    world it leaves, by the line read and the clipboard outcome. *)
Lemma loop_body_cases (device_name : pystr) (d : pydict) (w : world) :
  loop_body tbl device_name d w =
  let out := stdout w ++ prologue device_name in
  match stdin w with
  | [] => Raise EOFError (mkWorld [] out (clipboard w) (pastes w) (files w))
  | line :: rest =>
      if str_eqb (str_lower tbl line) (lit "s") then
        Ret d (mkWorld rest (out ++ [Line (msg_skipped device_name)])
                 (clipboard w) (pastes w) (files w))
      else
        match clipboard w (pastes w) with
        | PasteOk text =>
            if uuid_format_ok (strip text) then
              Ret (dict_set device_name (strip text) d)
                (mkWorld rest
                   (out ++ [Line (reported (msg_captured (strip text)))])
                   (clipboard w) (S (pastes w)) (files w))
            else
              Ret d (mkWorld rest
                       (out ++ [Line (reported (msg_invalid (strip text)))])
                       (clipboard w) (S (pastes w)) (files w))
        | PasteErr detail =>
            Ret d (mkWorld rest
                     (out ++ [Line (msg_error (PasteException detail))])
                     (clipboard w) (S (pastes w)) (files w))
        end
  end.
Proof.
  unfold loop_body, bind, on_dict, capture, try_except, bind_d, lift, setitem,
    print, print_plain, input, pyperclip_paste, ret, emit, prologue, reported.
  cbn [stdin stdout clipboard pastes files].
  destruct (stdin w) as [|line rest].
  - rewrite <- !app_assoc. reflexivity.
  - destruct (str_eqb (str_lower tbl line) (lit "s")).
    + cbn [stdin stdout clipboard pastes files].
      rewrite <- !app_assoc. reflexivity.
    + cbn [stdin stdout clipboard pastes files].
      destruct (clipboard w (pastes w)) as [text|detail].
      * destruct (uuid_format_ok (strip text)).
        -- destruct (surrogate_run (msg_captured (strip text)) 0)
             as [[[bad start] stop]|];
             cbn [stdin stdout clipboard pastes files];
             rewrite <- !app_assoc; reflexivity.
        -- destruct (surrogate_run (msg_invalid (strip text)) 0)
             as [[[bad start] stop]|];
             cbn [stdin stdout clipboard pastes files];
             rewrite <- !app_assoc; reflexivity.
      * cbn [stdin stdout clipboard pastes files].
        rewrite <- !app_assoc. reflexivity.
Qed.

(** The loop over a concatenation runs the first part, then the second
    from where the first stopped. *)
Lemma for_devices_app (pre post : list pystr) (d : pydict) (w : world) :
  for_devices tbl (pre ++ post) d w =
  match for_devices tbl pre d w with
  | Ret d' w' => for_devices tbl post d' w'
  | Raise e w' => Raise e w'
  end.
Proof.
  revert d w. induction pre as [|n pre IH]; intros d w; simpl.
  - reflexivity.
  - unfold bind. destruct (loop_body tbl n d w) as [d1 w1|e w1]; auto.
Qed.

(** An iteration returns normally exactly when a line is left to read, and
    then leaves the dictionary as it was or with one item set. *)
Lemma loop_body_ret (device_name : pystr) (d d' : pydict) (w w' : world) :
  loop_body tbl device_name d w = Ret d' w' ->
  (d' = d \/ exists v, len v = 36 /\ d' = dict_set device_name v d)
  /\ (exists line out, stdin w = line :: stdin w'
                       /\ stdout w' = stdout w ++ prologue device_name ++ [Line out]
                       /\ hd 0 out = 32)
  /\ clipboard w' = clipboard w
  /\ files w' = files w
  /\ (pastes w <= pastes w' <= S (pastes w))%nat.
Proof.
  rewrite loop_body_cases. cbv zeta.
  destruct (stdin w) as [|line rest]; [discriminate|].
  destruct (str_eqb (str_lower tbl line) (lit "s")).
  { intros H. inversion H; subst; clear H. cbn [stdin stdout clipboard pastes files].
    repeat split; auto.
    exists line, (msg_skipped device_name). rewrite <- app_assoc. auto. }
  destruct (clipboard w (pastes w)) as [text|detail].
  - destruct (uuid_format_ok (strip text)) eqn:Hok.
    + intros H. inversion H; subst; clear H. cbn [stdin stdout clipboard pastes files].
      repeat split; auto.
      * right. exists (strip text). split; auto using uuid_format_ok_len.
      * exists line, (reported (msg_captured (strip text))).
        rewrite <- app_assoc. auto using reported_hd.
    + intros H. inversion H; subst; clear H. cbn [stdin stdout clipboard pastes files].
      repeat split; auto.
      exists line, (reported (msg_invalid (strip text))).
      rewrite <- app_assoc. auto using reported_hd.
  - intros H. inversion H; subst; clear H. cbn [stdin stdout clipboard pastes files].
    repeat split; auto.
    exists line, (msg_error (PasteException detail)). rewrite <- app_assoc. auto.
Qed.

(** The only exception an iteration lets through is [EOFError]. *)
Lemma loop_body_raise (device_name : pystr) (d : pydict) (w w' : world) (e : exn) :
  loop_body tbl device_name d w = Raise e w' -> e = EOFError /\ stdin w = [].
Proof.
  rewrite loop_body_cases. cbv zeta.
  destruct (stdin w) as [|line rest]; [intros H; inversion H; auto|].
  destruct (str_eqb (str_lower tbl line) (lit "s")); [discriminate|].
  destruct (clipboard w (pastes w)) as [text|detail]; [|discriminate].
  destruct (uuid_format_ok (strip text)); discriminate.
Qed.

End Iteration.

(** ** The console output of a run *)

Lemma visited_app (a b : list out_event) : visited (a ++ b) = visited a ++ visited b.
Proof.
  induction a as [|e a IH]; simpl; [reflexivity|].
  destruct (header_name e); simpl; now rewrite IH.
Qed.

Lemma header_name_device (device_name : pystr) :
  header_name (Line (msg_device device_name)) = Some device_name.
Proof. reflexivity. Qed.

Lemma header_name_indented (s : pystr) : hd 0 s = 32 -> header_name (Line s) = None.
Proof. destruct s as [|c s]; simpl; [reflexivity|]. now intros ->. Qed.

Lemma visited_iteration (device_name out : pystr) :
  hd 0 out = 32 -> visited (prologue device_name ++ [Line out]) = [device_name].
Proof.
  intros H. unfold prologue. cbn [app visited].
  rewrite header_name_device, (header_name_indented out H). reflexivity.
Qed.

Lemma visited_banner : visited (map Line banner) = [].
Proof. reflexivity. Qed.

(** ** The file system *)

Lemma fs_read_write_same (path text : pystr) (fs : filesystem) :
  fs_read path (fs_write path text fs) = Some text.
Proof. unfold fs_read, fs_write. simpl. now rewrite str_eqb_refl. Qed.


(** ** The loop *)

Section Loop.

Variable tbl : lower_table.

(** What a completed loop leaves behind: one line read and one block of
    output per name, in order; clipboard script and files untouched. *)
Lemma for_devices_ret (names : list pystr) :
  forall (d d' : pydict) (w w' : world),
    for_devices tbl names d w = Ret d' w' ->
    (exists consumed, stdin w = consumed ++ stdin w'
                      /\ List.length consumed = List.length names)
    /\ (exists out, stdout w' = stdout w ++ out /\ visited out = names)
    /\ clipboard w' = clipboard w
    /\ files w' = files w
    /\ (pastes w <= pastes w' <= pastes w + List.length names)%nat.
Proof.
  induction names as [|n names IH]; intros d d' w w' H.
  - inversion H; subst. repeat split; try lia.
    + exists []. auto.
    + exists []. now rewrite app_nil_r.
  - simpl in H. unfold bind in H.
    destruct (loop_body tbl n d w) as [d1 w1|e w1] eqn:Hb; [|discriminate].
    apply loop_body_ret in Hb.
    destruct Hb as (_ & (line & out & Hin & Hout & Hhd) & Hclip & Hfiles & Hp).
    apply IH in H.
    destruct H as ((consumed & Hin' & Hlen) & (out' & Hout' & Hvis) & Hclip' & Hfiles' & Hp').
    repeat split.
    + exists (line :: consumed). rewrite Hin, Hin'. simpl. auto.
    + exists ((prologue n ++ [Line out]) ++ out'). split.
      * rewrite Hout', Hout. now rewrite <- !app_assoc.
      * rewrite visited_app, (visited_iteration n out Hhd), Hvis. reflexivity.
    + congruence.
    + congruence.
    + lia.
    + simpl. lia.
Qed.

(** The loop stops early only at the end of standard input. *)
Lemma for_devices_raise (names : list pystr) :
  forall (d : pydict) (w w' : world) (e : exn),
    for_devices tbl names d w = Raise e w' ->
    e = EOFError /\ (List.length (stdin w) < List.length names)%nat.
Proof.
  induction names as [|n names IH]; intros d w w' e H; [discriminate|].
  simpl in H. unfold bind in H.
  destruct (loop_body tbl n d w) as [d1 w1|e1 w1] eqn:Hb.
  - apply loop_body_ret in Hb. destruct Hb as (_ & (line & out & Hin & _) & _).
    apply IH in H. destruct H as [-> Hlt]. split; [reflexivity|].
    rewrite Hin. simpl. lia.
  - inversion H; subst. apply loop_body_raise in Hb. destruct Hb as [-> Hnil].
    split; [reflexivity|]. rewrite Hnil. simpl. lia.
Qed.

(** With a line for every name the loop completes, whatever the clipboard
    does. *)
Lemma for_devices_total (names : list pystr) (d : pydict) (w : world) :
  (List.length names <= List.length (stdin w))%nat ->
  exists d' w', for_devices tbl names d w = Ret d' w'.
Proof.
  intros Hlen. destruct (for_devices tbl names d w) as [d' w'|e w'] eqn:H; eauto.
  apply for_devices_raise in H. lia.
Qed.

(** The dictionary grows at its end, by items for names of the loop. *)
Lemma for_devices_dict (names : list pystr) :
  forall (d d' : pydict) (w w' : world),
    NoDup names ->
    (forall n, In n names -> ~ In n (keys d)) ->
    for_devices tbl names d w = Ret d' w' ->
    exists added,
      d' = d ++ added
      /\ incl (keys added) names
      /\ NoDup (keys added)
      /\ Forall (fun v => len v = 36) (values added).
Proof.
  induction names as [|n names IH]; intros d d' w w' Hnd Hfresh H.
  - inversion H; subst. exists []. rewrite app_nil_r.
    repeat split; simpl; auto using incl_nil_l, NoDup_nil.
  - simpl in H. unfold bind in H.
    destruct (loop_body tbl n d w) as [d1 w1|e w1] eqn:Hb; [|discriminate].
    apply loop_body_ret in Hb. destruct Hb as (Hd1 & _).
    inversion Hnd as [|? ? Hn Hnd']; subst.
    destruct Hd1 as [-> | (v & Hv & ->)].
    + apply IH in H; auto.
      * destruct H as (added & -> & Hincl & Hnodup & Hvals).
        exists added. repeat split; auto using incl_tl.
      * intros m Hm. apply Hfresh. now right.
    + rewrite dict_set_fresh in H
        by (apply dict_get_None, Hfresh; now left).
      apply IH in H; auto.
      * destruct H as (added & -> & Hincl & Hnodup & Hvals).
        exists ((n, v) :: added). rewrite <- app_assoc.
        repeat split; simpl; auto.
        -- apply incl_cons; [now left | now apply incl_tl].
        -- constructor; auto.
      * intros m Hm. unfold keys. rewrite map_app, in_app_iff. simpl.
        intros [Hin | [<- | []]]; [|contradiction].
        apply (Hfresh m); [now right | exact Hin].
Qed.

End Loop.

(** ** The whole script *)

Lemma print_all_cases (lines : list pystr) (w : world) :
  print_all lines w =
  Ret tt (mkWorld (stdin w) (stdout w ++ map Line lines)
            (clipboard w) (pastes w) (files w)).
Proof.
  revert w. induction lines as [|l lines IH]; intros w; simpl.
  - unfold ret. rewrite app_nil_r. now destruct w.
  - unfold bind, print_plain. rewrite IH. unfold emit.
    cbn [stdin stdout clipboard pastes files]. now rewrite <- app_assoc.
Qed.

Section Whole.

Variable tbl : lower_table.

(** The world in which the loop starts: banner written, one line read. *)
Lemma collect_cases (w : world) :
  collect tbl w =
  let out := stdout w ++ map Line banner in
  match stdin w with
  | [] => Raise EOFError (mkWorld [] out (clipboard w) (pastes w) (files w))
  | _ :: rest =>
      for_devices tbl BITWIG_DEVICES dict_empty
        (mkWorld rest out (clipboard w) (pastes w) (files w))
  end.
Proof.
  unfold collect, bind. rewrite print_all_cases. unfold input.
  cbn [stdin stdout clipboard pastes files].
  destruct (stdin w); reflexivity.
Qed.

Lemma save_cases (d : pydict) (w : world) :
  save d w =
  Ret tt (mkWorld (stdin w)
            (stdout w ++ [Line (msg_saved (len d)); Line (json_dumps d)])
            (clipboard w) (pastes w)
            (fs_write output_file (json_dumps d) (files w))).
Proof.
  unfold save, dump_to_file, bind, print_plain, emit.
  cbn [stdin stdout clipboard pastes files].
  now rewrite <- app_assoc.
Qed.

Lemma main_cases (w : world) :
  main tbl w =
  match collect tbl w with
  | Ret d w1 => save d w1
  | Raise e w1 => Raise e w1
  end.
Proof. reflexivity. Qed.

(** A completed [main] went through [collect] and [save]. *)
Lemma main_ret (w wf : world) :
  main tbl w = Ret tt wf ->
  exists d w1, collect tbl w = Ret d w1 /\ save d w1 = Ret tt wf.
Proof.
  rewrite main_cases. destruct (collect tbl w) as [d w1|e w1]; [|discriminate].
  eauto.
Qed.

(** The mapping [collect] returns is well formed. *)
Lemma collect_well_formed (w w1 : world) (d : pydict) :
  collect tbl w = Ret d w1 -> well_formed d.
Proof.
  rewrite collect_cases. cbv zeta. destruct (stdin w) as [|l rest]; [discriminate|].
  intros H. apply for_devices_dict in H; auto using BITWIG_DEVICES_NoDup.
  destruct H as (added & -> & Hincl & Hnd & Hvals).
  unfold dict_empty. cbn [app]. repeat split; auto.
Qed.

(** One iteration keeps two agreeing worlds in agreement. *)
Lemma loop_body_agree (device_name : pystr) (d : pydict) (w1 w2 : world) :
  same_inputs w1 w2 ->
  agree (loop_body tbl device_name d w1) (loop_body tbl device_name d w2).
Proof.
  intros [Hin Hclip]. rewrite !loop_body_cases. cbv zeta. rewrite <- Hin.
  assert (Hnext : forall k,
             clipboard w1 (S (pastes w1) + k)%nat = clipboard w2 (S (pastes w2) + k)%nat).
  { intros k. specialize (Hclip (S k)). now rewrite !Nat.add_succ_r in Hclip. }
  assert (Hnow : clipboard w1 (pastes w1) = clipboard w2 (pastes w2)).
  { specialize (Hclip 0%nat). now rewrite !Nat.add_0_r in Hclip. }
  destruct (stdin w1) as [|line rest]; simpl; [reflexivity|].
  destruct (str_eqb (str_lower tbl line) (lit "s")); simpl.
  { split; [reflexivity|]. split; auto. }
  rewrite <- Hnow.
  destruct (clipboard w1 (pastes w1)) as [text|detail]; simpl.
  - destruct (uuid_format_ok (strip text)); simpl; (split; [reflexivity|]); split; auto.
  - split; [reflexivity|]. split; auto.
Qed.

Lemma for_devices_agree (names : list pystr) :
  forall (d : pydict) (w1 w2 : world),
    same_inputs w1 w2 ->
    agree (for_devices tbl names d w1) (for_devices tbl names d w2).
Proof.
  induction names as [|n names IH]; intros d w1 w2 Hsame; simpl.
  - auto.
  - unfold bind. pose proof (loop_body_agree n d w1 w2 Hsame) as Hb.
    destruct (loop_body tbl n d w1) as [d1 w1'|e1 w1'],
             (loop_body tbl n d w2) as [d2 w2'|e2 w2']; simpl in Hb;
      try contradiction; auto.
    destruct Hb as [-> Hsame']. now apply IH.
Qed.

Lemma collect_agree (w1 w2 : world) :
  same_inputs w1 w2 -> agree (collect tbl w1) (collect tbl w2).
Proof.
  intros [Hin Hclip]. rewrite !collect_cases. cbv zeta. rewrite <- Hin.
  destruct (stdin w1) as [|l rest]; [exact eq_refl|].
  apply for_devices_agree. split; auto.
Qed.

End Whole.

(** ** The validity guard *)

(** C10: the guard of line 70, [uuid and len(uuid) == 36], accepts and
    rejects exactly the strings that the length test alone accepts and
    rejects; the non-emptiness conjunct is redundant. *)
Theorem uuid_format_ok_is_length_36 (s : pystr) :
  uuid_format_ok s = length_is_36 s.
Proof.
  unfold uuid_format_ok, length_is_36.
  destruct s as [|c s]; [reflexivity|].
  cbn [truthy andb]. reflexivity.
Qed.

(** ** Skipping an item *)

(** The words [s] and [S] lower-case to the skip token under every table. *)
Lemma skip_token_spellings (tbl : lower_table) :
  str_lower tbl (lit "s") = lit "s" /\ str_lower tbl (lit "S") = lit "s".
Proof. split; reflexivity. Qed.

(** C1, as the code has it: when the line read, lower-cased and not
    trimmed, is the token [s], the iteration reads no clipboard, leaves the
    mapping as it was, reports the skip and the loop goes on with the next
    item. *)
Theorem skip_token_skips_item
  (tbl : lower_table) (device_name : pystr) (d : pydict) (w : world)
  (line : pystr) (rest : list pystr) :
  stdin w = line :: rest ->
  str_lower tbl line = lit "s" ->
  exists w',
    loop_body tbl device_name d w = Ret d w'
    /\ pastes w' = pastes w
    /\ stdin w' = rest
    /\ stdout w' = stdout w ++ prologue device_name ++ [Line (msg_skipped device_name)]
    /\ forall post,
         for_devices tbl (device_name :: post) d w = for_devices tbl post d w'.
Proof.
  intros Hin Hskip.
  pose proof (loop_body_cases tbl device_name d w) as Hb. cbv zeta in Hb.
  rewrite Hin, Hskip in Hb. change (str_eqb (lit "s") (lit "s")) with true in Hb.
  cbv iota in Hb. rewrite <- app_assoc in Hb.
  eexists. split; [exact Hb|].
  cbn [stdin stdout pastes]. repeat split.
  intros post. cbn [for_devices]. unfold bind. now rewrite Hb.
Qed.

(** The operator types [S]: nothing is read from the clipboard. *)
Lemma skip_token_skips_item_witness :
  exists w',
    loop_body no_table (lit "EQ+") dict_empty (fresh_world [lit "S"] clip_uuid)
      = Ret dict_empty w'
    /\ pastes w' = pastes (fresh_world [lit "S"] clip_uuid)
    /\ stdin w' = []
    /\ stdout w' = stdout (fresh_world [lit "S"] clip_uuid)
                     ++ prologue (lit "EQ+") ++ [Line (msg_skipped (lit "EQ+"))]
    /\ forall post,
         for_devices no_table (lit "EQ+" :: post) dict_empty
           (fresh_world [lit "S"] clip_uuid)
         = for_devices no_table post dict_empty w'.
Proof.
  apply (skip_token_skips_item no_table (lit "EQ+") dict_empty
           (fresh_world [lit "S"] clip_uuid) (lit "S") []).
  - reflexivity.
  - reflexivity.
Defined.

(** C1, as the specification words it, fails: the line [" s"] trimmed and
    lower-cased is the skip token, yet the script compares the untrimmed
    line, reads the clipboard and records the UUID it finds there. *)
Lemma skip_token_is_not_trimmed :
  ~ (forall (tbl : lower_table) (device_name : pystr) (d : pydict) (w : world)
            (line : pystr) (rest : list pystr),
        stdin w = line :: rest ->
        trimmed_skip_token tbl line = true ->
        exists w', loop_body tbl device_name d w = Ret d w'
                   /\ pastes w' = pastes w).
Proof.
  intros claim.
  destruct (claim no_table (lit "EQ+") dict_empty
              (fresh_world [lit " s"] clip_uuid) (lit " s") []
              eq_refl eq_refl) as (w' & Hrun & _).
  vm_compute in Hrun. discriminate Hrun.
Qed.

(** ** Captures that fail *)




(** What the console shows then. *)
Example lone_surrogate_report :
  exists w',
    loop_body no_table (lit "EQ+") dict_empty
      (fresh_world [[]] clip_lone_surrogate) = Ret dict_empty w'
    /\ stdout w'
       = prologue (lit "EQ+")
           ++ [Line (lit "   " ++ [10060] ++ lit " Error reading clipboard: "
                       ++ lit "'utf-8' codec can't encode character '\ud800' "
                       ++ lit "in position 26: surrogates not allowed")].
Proof. eexists. split; [vm_compute; reflexivity | reflexivity]. Qed.

(** ** Termination of the script *)





(** A whole run with a clipboard that cannot be read ends normally, with an
    empty mapping in the file. *)
Example broken_clipboard_run :
  exists wf,
    main no_table (fresh_world enter_lines clip_broken) = Ret tt wf
    /\ fs_read output_file (files wf) = Some (lit "{}")
    /\ pastes wf = 24%nat.
Proof. eexists. split; [vm_compute; reflexivity|]. split; reflexivity. Qed.

(** ** The result mapping *)

Lemma NoDup_app_disjoint {A : Type} (l l' : list A) (x : A) :
  NoDup (l ++ l') -> In x l -> ~ In x l'.
Proof.
  induction l as [|a l IH]; simpl; intros Hnd Hin; [contradiction|].
  inversion Hnd as [|? ? Ha Hnd']; subst.
  destruct Hin as [<- | Hin].
  - intros Hx. apply Ha. apply in_or_app. now right.
  - now apply IH.
Qed.

(** The mapping the loop holds once it has gone through a prefix [pre] of
    the catalog: its keys are names of [pre], each once, its values are 36
    code points long, and no name still to come is a key. *)
Lemma reached_dict (tbl : lower_table) (pre post : list pystr)
  (w0 w : world) (d : pydict) :
  BITWIG_DEVICES = pre ++ post ->
  for_devices tbl pre dict_empty w0 = Ret d w ->
  incl (keys d) pre
  /\ NoDup (keys d)
  /\ Forall (fun v => len v = 36) (values d)
  /\ NoDup post
  /\ (forall n, In n post -> ~ In n (keys d)).
Proof.
  intros Hsplit Hrun.
  pose proof BITWIG_DEVICES_NoDup as Hnd. rewrite Hsplit in Hnd.
  apply for_devices_dict in Hrun;
    [| exact (NoDup_app_remove_r _ _ Hnd) | intros n _ []].
  destruct Hrun as (added & -> & Hincl & Hnodup & Hvals).
  unfold dict_empty. cbn [app]. repeat split; auto.
  - exact (NoDup_app_remove_l _ _ Hnd).
  - intros n Hn Hk. apply (NoDup_app_disjoint pre post n Hnd); auto.
Qed.




(** What the console and the mapping show then. *)
Example surrogate_uuid_report :
  exists w',
    loop_body no_table (lit "EQ+") dict_empty
      (fresh_world [[]] clip_surrogate_uuid)
    = Ret [(lit "EQ+", text_with_surrogate)] w'
    /\ stdout w'
       = prologue (lit "EQ+")
           ++ [Line (lit "   " ++ [10060] ++ lit " Error reading clipboard: "
                       ++ lit "'utf-8' codec can't encode character '\ud800' "
                       ++ lit "in position 50: surrogates not allowed")].
Proof. eexists. split; [vm_compute; reflexivity | reflexivity]. Qed.

(** C4: at every point of the loop (after any prefix of the catalog) the
    result mapping has only catalog names as keys, each at most once, and
    only values of 36 code points; what the loop does afterwards keeps every
    item in place and unchanged; and the mapping written to the output file
    has the same shape. *)
Theorem result_mapping_invariant
  (tbl : lower_table) (pre post : list pystr) (w0 w : world) (d : pydict) :
  BITWIG_DEVICES = pre ++ post ->
  for_devices tbl pre dict_empty w0 = Ret d w ->
  well_formed d
  /\ List.length BITWIG_DEVICES = 24%nat
  /\ (forall d' w',
        for_devices tbl post d w = Ret d' w' ->
        extends d d'
        /\ forall k v, dict_get k d = Some v -> dict_get k d' = Some v)
  /\ (forall ws wf,
        main tbl ws = Ret tt wf ->
        exists df,
          fs_read output_file (files wf) = Some (json_dumps df)
          /\ well_formed df).
Proof.
  intros Hsplit Hrun.
  destruct (reached_dict tbl pre post w0 w d Hsplit Hrun)
    as (Hincl & Hnodup & Hvals & Hpost & Hfresh).
  split; [|split; [reflexivity|split]].
  - repeat split; auto.
    intros k Hk. rewrite Hsplit. apply in_or_app. left. now apply Hincl.
  - intros d' w' Hrest.
    apply for_devices_dict in Hrest; auto.
    destruct Hrest as (added & -> & _).
    split; [now exists added|].
    intros k v. apply dict_get_app_l.
  - intros ws wf Hmain. apply main_ret in Hmain.
    destruct Hmain as (df & w1 & Hc & Hs).
    exists df. split; [|exact (collect_well_formed tbl ws w1 df Hc)].
    rewrite save_cases in Hs. inversion Hs; subst; clear Hs.
    cbn [files]. apply fs_read_write_same.
Qed.

(** After the first item was captured, the rest of the catalog is gone
    through with the operator pressing Enter. *)
Lemma result_mapping_invariant_witness :
  well_formed [(lit "EQ+", uuid_example)]
  /\ List.length BITWIG_DEVICES = 24%nat
  /\ (forall d' w',
        for_devices no_table (skipn 1 BITWIG_DEVICES) [(lit "EQ+", uuid_example)]
          (mkWorld enter_lines
             (prologue (lit "EQ+") ++ [Line (msg_captured uuid_example)])
             clip_padded 1 [])
        = Ret d' w' ->
        extends [(lit "EQ+", uuid_example)] d'
        /\ forall k v,
             dict_get k [(lit "EQ+", uuid_example)] = Some v ->
             dict_get k d' = Some v)
  /\ (forall ws wf,
        main no_table ws = Ret tt wf ->
        exists df,
          fs_read output_file (files wf) = Some (json_dumps df)
          /\ well_formed df).
Proof.
  apply (result_mapping_invariant no_table [lit "EQ+"] (skipn 1 BITWIG_DEVICES)
           (fresh_world ([] :: enter_lines) clip_padded)).
  - reflexivity.
  - vm_compute. reflexivity.
Defined.

(** ** Order of the visits *)

Lemma header_name_saved (count : N) : header_name (Line (msg_saved count)) = None.
Proof. reflexivity. Qed.

Lemma header_name_json (d : pydict) : header_name (Line (json_dumps d)) = None.
Proof. destruct d; reflexivity. Qed.

(** C6: a run that reaches its end has announced the 24 names of the catalog,
    each once and in the order of the catalog, and has read one console line
    for the start gate and one per name, whatever the outcome of each item. *)
Theorem every_device_visited_once_in_order
  (tbl : lower_table) (w wf : world) :
  main tbl w = Ret tt wf ->
  exists consumed out,
    stdin w = consumed ++ stdin wf
    /\ List.length consumed = 25%nat
    /\ stdout wf = stdout w ++ out
    /\ visited out = BITWIG_DEVICES
    /\ NoDup BITWIG_DEVICES
    /\ List.length BITWIG_DEVICES = 24%nat.
Proof.
  intros Hmain. apply main_ret in Hmain. destruct Hmain as (d & w1 & Hc & Hs).
  rewrite collect_cases in Hc. cbv zeta in Hc.
  destruct (stdin w) as [|gate rest] eqn:Hin; [discriminate|].
  apply for_devices_ret in Hc. cbn [stdin stdout clipboard pastes files] in Hc.
  destruct Hc as ((consumed & Hin1 & Hlen) & (out & Hout & Hvis) & _).
  rewrite save_cases in Hs. inversion Hs; subst wf; clear Hs.
  cbn [stdin stdout].
  exists (gate :: consumed),
    (map Line banner ++ out ++ [Line (msg_saved (len d)); Line (json_dumps d)]).
  repeat split.
  - now rewrite Hin1.
  - cbn [List.length]. rewrite Hlen. now rewrite BITWIG_DEVICES_length.
  - rewrite Hout. now rewrite <- !app_assoc.
  - rewrite !visited_app, visited_banner, Hvis. cbn [visited].
    rewrite header_name_saved, header_name_json. cbn [app]. apply app_nil_r.
  - exact BITWIG_DEVICES_NoDup.
Qed.

(** The operator presses Enter throughout, with a UUID on the clipboard. *)
Lemma every_device_visited_once_in_order_witness :
  exists consumed out,
    stdin (fresh_world enter_lines clip_uuid)
    = consumed ++ stdin (world_of (main no_table (fresh_world enter_lines clip_uuid)))
    /\ List.length consumed = 25%nat
    /\ stdout (world_of (main no_table (fresh_world enter_lines clip_uuid)))
       = stdout (fresh_world enter_lines clip_uuid) ++ out
    /\ visited out = BITWIG_DEVICES
    /\ NoDup BITWIG_DEVICES
    /\ List.length BITWIG_DEVICES = 24%nat.
Proof.
  apply (every_device_visited_once_in_order no_table).
  vm_compute. reflexivity.
Defined.

(** ** The output file and the final report *)

(** The text [json.dumps] gives for the mapping of the specification's
    example: a brace, the item on a line of its own behind two blanks, a
    brace. *)
Example json_dumps_example :
  json_dumps [(lit "EQ+", uuid_example)]
  = [123; 10] ++ lit "  " ++ [34] ++ lit "EQ+" ++ [34] ++ lit ": "
      ++ [34] ++ uuid_example ++ [34] ++ [10; 125].
Proof. reflexivity. Qed.




(** The file before and after the second run. *)
Example second_run_overwrites :
  fs_read output_file (files second_run_world)
  = Some (json_dumps [(lit "EQ+", uuid_example)])
  /\ fs_read output_file (files (world_of (main no_table second_run_world)))
     = Some (lit "{}").
Proof. split; vm_compute; reflexivity. Qed.





(** The report of that run reads "Saved 1 UUIDs to bitwig_device_uuids.json"
    behind a line end and the check mark. *)
Example first_run_report :
  exists out,
    stdout (world_of (main no_table first_run_world))
    = out ++ [Line ([10; 9989] ++ lit " Saved 1 UUIDs to bitwig_device_uuids.json");
              Line (json_dumps [(lit "EQ+", uuid_example)])].
Proof.
  exists (removelast (removelast (stdout (world_of (main no_table first_run_world))))).
  vm_compute. reflexivity.
Qed.

(** A run with 24 captures reports "Saved 24". *)
Example full_run_report :
  exists out,
    stdout (world_of (main no_table (fresh_world enter_lines clip_uuid)))
    = out ++ [Line ([10; 9989] ++ lit " Saved 24 UUIDs to bitwig_device_uuids.json");
              Line (json_dumps (map (fun n => (n, uuid_example)) BITWIG_DEVICES))].
Proof.
  exists (removelast (removelast
            (stdout (world_of (main no_table (fresh_world enter_lines clip_uuid)))))).
  vm_compute. reflexivity.
Qed.

(** ** Determinism *)

(** C9: two runs that are handed the same console lines and the same
    clipboard outcomes, read after read, end alike: with the same exception
    or with the same result mapping, and when they reach their end the output
    file holds the same text in both, whatever the earlier console output,
    the number of earlier clipboard reads and the earlier files were. *)
Theorem same_inputs_same_outcome (tbl : lower_table) (w1 w2 : world) :
  same_inputs w1 w2 ->
  value_of (collect tbl w1) = value_of (collect tbl w2)
  /\ value_of (main tbl w1) = value_of (main tbl w2)
  /\ (forall wf1,
        main tbl w1 = Ret tt wf1 ->
        exists wf2 text,
          main tbl w2 = Ret tt wf2
          /\ fs_read output_file (files wf1) = Some text
          /\ fs_read output_file (files wf2) = Some text).
Proof.
  intros Hsame. pose proof (collect_agree tbl w1 w2 Hsame) as Ha.
  rewrite !main_cases.
  destruct (collect tbl w1) as [d1 w1'|e1 w1'],
           (collect tbl w2) as [d2 w2'|e2 w2']; cbn [agree] in Ha;
    try contradiction.
  - destruct Ha as [<- _]. rewrite !save_cases. cbn [value_of].
    repeat split. intros wf1 Hwf1. inversion Hwf1; subst wf1; clear Hwf1.
    eexists. exists (json_dumps d1). split; [reflexivity|].
    cbn [files]. split; apply fs_read_write_same.
  - subst e2. cbn [value_of]. repeat split. discriminate.
Qed.

(** A fresh world and a used one that hand over the same inputs. *)
Lemma same_inputs_same_outcome_witness :
  value_of (collect no_table (fresh_world enter_lines clip_uuid))
  = value_of (collect no_table used_world)
  /\ value_of (main no_table (fresh_world enter_lines clip_uuid))
     = value_of (main no_table used_world)
  /\ (forall wf1,
        main no_table (fresh_world enter_lines clip_uuid) = Ret tt wf1 ->
        exists wf2 text,
          main no_table used_world = Ret tt wf2
          /\ fs_read output_file (files wf1) = Some text
          /\ fs_read output_file (files wf2) = Some text).
Proof.
  apply (same_inputs_same_outcome no_table).
  split; [reflexivity|]. intros k. reflexivity.
Defined.

(** ** The worked example of the specification *)

(** A catalog of two names; the operator types [go] for the first, with a
    UUID on the clipboard, and [s] for the second.  One clipboard read, one
    item in the mapping. *)
Example two_device_run :
  exists w',
    for_devices no_table [lit "EQ+"; lit "Polysynth"] dict_empty
      (fresh_world [lit "go"; lit "s"] clip_uuid)
    = Ret [(lit "EQ+", uuid_example)] w'
    /\ pastes w' = 1%nat
    /\ stdin w' = []
    /\ visited (stdout w') = [lit "EQ+"; lit "Polysynth"].
Proof. eexists. split; [vm_compute; reflexivity|]. repeat split. Qed.

(** * Further properties of the script *)

(** ** More on dictionaries *)

Lemma keys_app (d e : pydict) : keys (d ++ e) = keys d ++ keys e.
Proof. unfold keys. apply map_app. Qed.


Lemma dict_get_app_r (k : pystr) (d e : pydict) :
  dict_get k d = None -> dict_get k (d ++ e) = dict_get k e.
Proof.
  induction d as [|[k' v'] d IH]; simpl; [reflexivity|].
  destruct (str_eqb k' k); [discriminate | exact IH].
Qed.

Lemma dict_set_length (k v : pystr) (d : pydict) :
  (List.length (dict_set k v d) <= S (List.length d))%nat.
Proof.
  induction d as [|[k' v'] d IH]; simpl; [lia|].
  destruct (str_eqb k' k); simpl; lia.
Qed.

Lemma dict_set_values (Q : pystr -> Prop) (k v : pystr) (d : pydict) :
  Q v -> Forall Q (values d) -> Forall Q (values (dict_set k v d)).
Proof.
  intros Hv. induction d as [|[k' v'] d IH]; simpl; intros Hd.
  - constructor; auto.
  - inversion Hd; subst.
    destruct (str_eqb k' k); simpl; constructor; auto.
Qed.

Lemma uuid_format_ok_eqb (s : pystr) : uuid_format_ok s = (len s =? 36).
Proof. unfold uuid_format_ok. destruct s; reflexivity. Qed.

(** ** A console that runs out of lines *)





(** In that run 23 UUIDs had been read from the clipboard. *)
Example short_run_reads :
  pastes (world_of (main no_table short_world)) = 23%nat
  /\ files (world_of (main no_table short_world)) = [].
Proof. split; vm_compute; reflexivity. Qed.

(** ** What the final mapping holds for a device *)

(** The mapping after the loop went on from an item that left [d1]. *)
Lemma rest_of_loop_lookup (tbl : lower_table) (k : pystr) (post : list pystr)
  (d1 dfin : pydict) (w1 wfin : world) :
  NoDup post ->
  (forall n, In n post -> ~ In n (keys d1)) ->
  ~ In k post ->
  for_devices tbl post d1 w1 = Ret dfin wfin ->
  dict_get k dfin = dict_get k d1.
Proof.
  intros Hnd Hfresh Hk Hrun.
  apply for_devices_dict in Hrun; auto.
  destruct Hrun as (added & -> & Hincl & _).
  destruct (dict_get k d1) as [v|] eqn:Hget.
  - now apply dict_get_app_l.
  - rewrite dict_get_app_r by exact Hget.
    apply dict_get_None. intros Hin. apply Hk. now apply Hincl.
Qed.

(** X2: in a run of the loop over the whole catalog, what the final mapping
    holds for a device is decided by that device's iteration alone: the
    trimmed clipboard text when the line typed is not the skip token, the
    clipboard read succeeds and the trimmed text is 36 code points long; no
    entry otherwise. *)
Theorem final_mapping_entry
  (tbl : lower_table) (pre : list pystr) (device_name : pystr)
  (post : list pystr) (w0 : world) (d : pydict) (w : world)
  (line : pystr) (rest : list pystr) (dfin : pydict) (wfin : world) :
  BITWIG_DEVICES = pre ++ device_name :: post ->
  for_devices tbl pre dict_empty w0 = Ret d w ->
  stdin w = line :: rest ->
  for_devices tbl BITWIG_DEVICES dict_empty w0 = Ret dfin wfin ->
  dict_get device_name dfin = capture_of tbl line (clipboard w (pastes w)).
Proof.
  intros Hsplit Hpre Hin Hfull.
  destruct (reached_dict tbl pre (device_name :: post) w0 w d Hsplit Hpre)
    as (_ & _ & _ & Hnd & Hfresh).
  inversion Hnd as [|? ? Hnotin Hnd']; subst.
  assert (Hnone : dict_get device_name d = None).
  { apply dict_get_None, Hfresh. now left. }
  rewrite Hsplit, for_devices_app, Hpre in Hfull.
  cbn [for_devices] in Hfull. unfold bind in Hfull.
  rewrite loop_body_cases in Hfull. cbv zeta in Hfull. rewrite Hin in Hfull.
  unfold capture_of, is_skip.
  assert (Hkeep : forall w1,
             for_devices tbl post d w1 = Ret dfin wfin ->
             dict_get device_name dfin = None).
  { intros w1 Hrun. rewrite <- Hnone.
    apply (rest_of_loop_lookup tbl device_name post d dfin w1 wfin); auto.
    intros n Hn. apply Hfresh. now right. }
  destruct (str_eqb (str_lower tbl line) (lit "s")); [now apply Hkeep in Hfull|].
  destruct (clipboard w (pastes w)) as [text|detail]; [|now apply Hkeep in Hfull].
  rewrite uuid_format_ok_eqb in Hfull.
  destruct (len (strip text) =? 36); [|now apply Hkeep in Hfull].
  rewrite (dict_set_fresh _ _ _ Hnone) in Hfull.
  apply (rest_of_loop_lookup tbl device_name) in Hfull; auto.
  - rewrite Hfull, dict_get_app_r by exact Hnone.
    simpl. now rewrite str_eqb_refl.
  - intros n Hn. rewrite keys_app, in_app_iff. simpl.
    intros [Hk | [<- | []]]; [|contradiction].
    apply (Hfresh n); [now right | exact Hk].
Qed.

(** The first run of the examples: the first device is captured. *)
Lemma final_mapping_entry_witness :
  dict_get (lit "EQ+") [(lit "EQ+", uuid_example)]
  = capture_of no_table []
      (clipboard (fresh_world ([] :: repeat (lit "s") 23) clip_uuid)
         (pastes (fresh_world ([] :: repeat (lit "s") 23) clip_uuid))).
Proof.
  apply (final_mapping_entry no_table [] (lit "EQ+") (skipn 1 BITWIG_DEVICES)
           (fresh_world ([] :: repeat (lit "s") 23) clip_uuid)
           dict_empty
           (fresh_world ([] :: repeat (lit "s") 23) clip_uuid)
           [] (repeat (lit "s") 23)
           [(lit "EQ+", uuid_example)]
           (world_of (for_devices no_table BITWIG_DEVICES dict_empty
                        (fresh_world ([] :: repeat (lit "s") 23) clip_uuid)))).
  - reflexivity.
  - reflexivity.
  - reflexivity.
  - vm_compute. reflexivity.
Defined.

(** ** Order of the keys *)

Lemma subsequence_nil_l (l : list pystr) : subsequence [] l.
Proof. induction l; constructor; auto. Qed.

(** The items the loop adds come in the order of the names it goes
    through. *)
Lemma for_devices_order (tbl : lower_table) (names : list pystr) :
  forall (d d' : pydict) (w w' : world),
    NoDup names ->
    (forall n, In n names -> ~ In n (keys d)) ->
    for_devices tbl names d w = Ret d' w' ->
    exists added, d' = d ++ added /\ subsequence (keys added) names.
Proof.
  induction names as [|n names IH]; intros d d' w w' Hnd Hfresh H.
  - inversion H; subst. exists []. rewrite app_nil_r. split; [reflexivity|constructor].
  - cbn [for_devices] in H. unfold bind in H.
    destruct (loop_body tbl n d w) as [d1 w1|e w1] eqn:Hb; [|discriminate].
    apply loop_body_ret in Hb. destruct Hb as (Hd1 & _).
    inversion Hnd as [|? ? Hn Hnd']; subst.
    destruct Hd1 as [-> | (v & _ & ->)].
    + apply IH in H; auto.
      * destruct H as (added & -> & Hsub). exists added.
        split; [reflexivity | now constructor].
      * intros m Hm. apply Hfresh. now right.
    + rewrite dict_set_fresh in H by (apply dict_get_None, Hfresh; now left).
      apply IH in H; auto.
      * destruct H as (added & -> & Hsub). exists ((n, v) :: added).
        rewrite <- app_assoc. split; [reflexivity|]. simpl. now constructor.
      * intros m Hm. rewrite keys_app, in_app_iff. simpl.
        intros [Hk | [<- | []]]; [|contradiction].
        apply (Hfresh m); [now right | exact Hk].
Qed.

(** X3: the keys of the mapping a run collects, in their order of insertion
    (the order in which [json.dump] writes them), are the catalog with some
    names left out: the file lists the devices in catalog order. *)
Theorem mapping_keys_in_catalog_order
  (tbl : lower_table) (w w1 : world) (d : pydict) :
  collect tbl w = Ret d w1 ->
  subsequence (keys d) BITWIG_DEVICES.
Proof.
  rewrite collect_cases. cbv zeta. destruct (stdin w) as [|gate rest]; [discriminate|].
  intros H. apply for_devices_order in H; auto using BITWIG_DEVICES_NoDup.
  destruct H as (added & -> & Hsub). exact Hsub.
Qed.

(** The first run of the examples. *)
Lemma mapping_keys_in_catalog_order_witness :
  subsequence (keys [(lit "EQ+", uuid_example)]) BITWIG_DEVICES.
Proof.
  apply (mapping_keys_in_catalog_order no_table first_run_world
           (world_of (collect no_table first_run_world))).
  vm_compute. reflexivity.
Defined.

(** ** Clipboard reads *)

Lemma reads_due_cons (tbl : lower_table) (line : pystr) (lines : list pystr) :
  reads_due tbl (line :: lines)
  = if is_skip tbl line then reads_due tbl lines else S (reads_due tbl lines).
Proof. unfold reads_due. simpl. now destruct (is_skip tbl line). Qed.

Lemma reads_due_le (tbl : lower_table) (lines : list pystr) :
  (reads_due tbl lines <= List.length lines)%nat.
Proof.
  induction lines as [|l lines IH]; [apply le_n|].
  rewrite reads_due_cons. cbn [List.length]. destruct (is_skip tbl l); lia.
Qed.

(** The loop reads the clipboard once for each line that is not the skip
    token, and the mapping grows by at most one item per read. *)
Lemma for_devices_pastes (tbl : lower_table) (names : list pystr) :
  forall (d d' : pydict) (w w' : world),
    for_devices tbl names d w = Ret d' w' ->
    pastes w' = (pastes w + reads_due tbl (firstn (List.length names) (stdin w)))%nat
    /\ (List.length d'
        <= List.length d + reads_due tbl (firstn (List.length names) (stdin w)))%nat.
Proof.
  induction names as [|n names IH]; intros d d' w w' H.
  - inversion H; subst. cbn. split; lia.
  - cbn [for_devices] in H. unfold bind in H.
    rewrite loop_body_cases in H. cbv zeta in H.
    destruct (stdin w) as [|line rest]; [discriminate|].
    cbn [List.length firstn]. rewrite reads_due_cons. unfold is_skip.
    destruct (str_eqb (str_lower tbl line) (lit "s")).
    { apply IH in H. cbn [stdin pastes] in H. exact H. }
    destruct (clipboard w (pastes w)) as [text|detail].
    + destruct (uuid_format_ok (strip text));
        apply IH in H; cbn [stdin pastes] in H; destruct H as [Hp Hl];
        (split; [lia|]).
      * pose proof (dict_set_length n (strip text) d). lia.
      * lia.
    + apply IH in H. cbn [stdin pastes] in H. destruct H as [Hp Hl].
      split; lia.
Qed.

(** X4: a run that reaches its end has read the clipboard exactly once for
    each of the 24 device lines that is not the skip token (the line of the
    start gate does not count), and has collected at most one item per
    read. *)
Theorem one_clipboard_read_per_unskipped_item
  (tbl : lower_table) (w wf : world) :
  main tbl w = Ret tt wf ->
  exists d w1,
    collect tbl w = Ret d w1
    /\ pastes wf = (pastes w + reads_due tbl (firstn 24 (tl (stdin w))))%nat
    /\ (List.length d <= reads_due tbl (firstn 24 (tl (stdin w))))%nat
    /\ (reads_due tbl (firstn 24 (tl (stdin w))) <= 24)%nat.
Proof.
  intros Hmain. apply main_ret in Hmain. destruct Hmain as (d & w1 & Hc & Hs).
  exists d, w1. split; [exact Hc|].
  rewrite save_cases in Hs. inversion Hs; subst wf; clear Hs. cbn [pastes].
  rewrite collect_cases in Hc. cbv zeta in Hc.
  destruct (stdin w) as [|gate rest]; [discriminate|]. cbn [tl].
  apply for_devices_pastes in Hc. rewrite BITWIG_DEVICES_length in Hc.
  cbn [stdin pastes] in Hc. destruct Hc as [Hp Hl].
  split; [exact Hp|]. split; [exact Hl|].
  pose proof (reads_due_le tbl (firstn 24 rest)) as Hle.
  pose proof (firstn_le_length 24 rest). lia.
Qed.

(** The first run of the examples: 23 of the 24 device lines are [s]. *)
Lemma one_clipboard_read_per_unskipped_item_witness :
  exists d w1,
    collect no_table first_run_world = Ret d w1
    /\ pastes (world_of (main no_table first_run_world))
       = (pastes first_run_world
          + reads_due no_table (firstn 24 (tl (stdin first_run_world))))%nat
    /\ (List.length d
        <= reads_due no_table (firstn 24 (tl (stdin first_run_world))))%nat
    /\ (reads_due no_table (firstn 24 (tl (stdin first_run_world))) <= 24)%nat.
Proof.
  apply (one_clipboard_read_per_unskipped_item no_table first_run_world).
  vm_compute. reflexivity.
Defined.

(** ** Trimmed values *)

Lemma lstrip_head (s : pystr) :
  match lstrip s with
  | [] => True
  | c :: _ => isspace c = false
  end.
Proof.
  induction s as [|c s IH]; simpl; [exact I|].
  destruct (isspace c) eqn:Hc; [exact IH | exact Hc].
Qed.

Lemma lstrip_suffix (s : pystr) : exists ws, s = ws ++ lstrip s.
Proof.
  induction s as [|c s IH]; simpl; [now exists []|].
  destruct (isspace c).
  - destruct IH as (ws & Hws). exists (c :: ws). simpl. now rewrite <- Hws.
  - now exists [].
Qed.

Lemma rstrip_prefix (s : pystr) : exists ws, s = rstrip s ++ ws.
Proof.
  unfold rstrip. destruct (lstrip_suffix (rev s)) as (ws & Hws).
  exists (rev ws). rewrite <- rev_app_distr, <- Hws. now rewrite rev_involutive.
Qed.

Lemma rstrip_last (s : pystr) (c : N) :
  rstrip s <> [] -> isspace (last (rstrip s) c) = false.
Proof.
  unfold rstrip. pose proof (lstrip_head (rev s)) as Hh.
  destruct (lstrip (rev s)) as [|x v]; [intros H; now elim H|].
  intros _. simpl. rewrite last_last. exact Hh.
Qed.

(** What [strip] returns neither begins nor ends with white space. *)
Lemma strip_is_trimmed (s : pystr) : is_trimmed (strip s) = true.
Proof.
  unfold strip, is_trimmed.
  destruct (rstrip (lstrip s)) as [|c u] eqn:Hu; [reflexivity|].
  assert (Hlast : isspace (last (c :: u) c) = false).
  { rewrite <- Hu. apply rstrip_last. rewrite Hu. discriminate. }
  rewrite Hlast.
  destruct (rstrip_prefix (lstrip s)) as (ws & Hws). rewrite Hu in Hws.
  pose proof (lstrip_head s) as Hh. rewrite Hws in Hh. simpl in Hh.
  now rewrite Hh.
Qed.

Lemma for_devices_values (tbl : lower_table) (Q : pystr -> Prop) :
  (forall text, Q (strip text)) ->
  forall (names : list pystr) (d d' : pydict) (w w' : world),
    Forall Q (values d) ->
    for_devices tbl names d w = Ret d' w' ->
    Forall Q (values d').
Proof.
  intros HQ. induction names as [|n names IH]; intros d d' w w' Hd H.
  - inversion H; subst. exact Hd.
  - cbn [for_devices] in H. unfold bind in H.
    rewrite loop_body_cases in H. cbv zeta in H.
    destruct (stdin w) as [|line rest]; [discriminate|].
    destruct (str_eqb (str_lower tbl line) (lit "s")); [now apply IH in H|].
    destruct (clipboard w (pastes w)) as [text|detail]; [|now apply IH in H].
    destruct (uuid_format_ok (strip text)); [|now apply IH in H].
    apply IH in H; auto. apply dict_set_values; auto.
Qed.

(** X5: every value of the mapping a run collects, and so every value
    written to the file, neither begins nor ends with a white-space
    character: the clipboard text is stored trimmed. *)
Theorem captured_values_are_trimmed
  (tbl : lower_table) (w w1 : world) (d : pydict) :
  collect tbl w = Ret d w1 ->
  Forall (fun v => is_trimmed v = true) (values d).
Proof.
  rewrite collect_cases. cbv zeta. destruct (stdin w) as [|gate rest]; [discriminate|].
  apply for_devices_values; [apply strip_is_trimmed | constructor].
Qed.

(** Enter throughout, with the UUID on the clipboard between blanks and a
    line end. *)
Lemma captured_values_are_trimmed_witness :
  Forall (fun v => is_trimmed v = true)
    (values (map (fun n => (n, uuid_example)) BITWIG_DEVICES)).
Proof.
  apply (captured_values_are_trimmed no_table (fresh_world enter_lines clip_padded)
           (world_of (collect no_table (fresh_world enter_lines clip_padded)))).
  vm_compute. reflexivity.
Defined.

(** ** A clipboard that does not change *)

(** The loop with the same valid text on the clipboard at every read and no
    line that skips: every name gets that text. *)
Lemma for_devices_same_text (tbl : lower_table) (text : pystr)
  (names : list pystr) :
  len (strip text) = 36 ->
  forall (d : pydict) (w : world),
    NoDup names ->
    (forall n, In n names -> ~ In n (keys d)) ->
    (forall k, clipboard w (pastes w + k)%nat = PasteOk text) ->
    (List.length names <= List.length (stdin w))%nat ->
    Forall (fun line => is_skip tbl line = false)
      (firstn (List.length names) (stdin w)) ->
    exists w',
      for_devices tbl names d w
      = Ret (d ++ map (fun n => (n, strip text)) names) w'.
Proof.
  intros Hlen. induction names as [|n names IH];
    intros d w Hnd Hfresh Hclip Hlines Hskip.
  - exists w. cbn. now rewrite app_nil_r.
  - cbn [for_devices]. unfold bind. rewrite loop_body_cases. cbv zeta.
    destruct (stdin w) as [|line rest] eqn:Hin; [cbn in Hlines; lia|].
    cbn [List.length firstn] in Hskip, Hlines.
    inversion Hskip as [|? ? Hline Hrest]; subst.
    unfold is_skip in Hline. rewrite Hline.
    pose proof (Hclip 0%nat) as Hnow. rewrite Nat.add_0_r in Hnow.
    rewrite Hnow, (uuid_format_ok_true _ Hlen).
    rewrite dict_set_fresh by (apply dict_get_None, Hfresh; now left).
    inversion Hnd as [|? ? Hn Hnd']; subst.
    destruct (IH (d ++ [(n, strip text)])
                (mkWorld rest
                   ((stdout w ++ prologue n)
                      ++ [Line (reported (msg_captured (strip text)))])
                   (clipboard w) (S (pastes w)) (files w))) as (w' & Hw'); auto.
    + intros m Hm. rewrite keys_app, in_app_iff. simpl.
      intros [Hk | [<- | []]]; [|contradiction].
      apply (Hfresh m); [now right | exact Hk].
    + intros k. cbn [clipboard pastes]. specialize (Hclip (S k)).
      now rewrite Nat.add_succ_r in Hclip.
    + cbn [stdin]. lia.
    + exists w'. rewrite Hw'. cbn [map]. now rewrite <- app_assoc.
Qed.

(** X6: the script neither clears the clipboard nor compares captures.  When
    every clipboard read of a run returns the same text, whose trimmed
    length is 36, and none of the 24 device lines is the skip token, all 24
    devices are recorded with that one value. *)
Theorem unchanged_clipboard_fills_every_device
  (tbl : lower_table) (w : world) (gate : pystr) (lines : list pystr)
  (text : pystr) :
  stdin w = gate :: lines ->
  (24 <= List.length lines)%nat ->
  Forall (fun line => is_skip tbl line = false) (firstn 24 lines) ->
  (forall k, clipboard w (pastes w + k)%nat = PasteOk text) ->
  len (strip text) = 36 ->
  exists w1,
    collect tbl w = Ret (map (fun n => (n, strip text)) BITWIG_DEVICES) w1.
Proof.
  intros Hin Hlen Hskip Hclip Htext.
  rewrite collect_cases. cbv zeta. rewrite Hin.
  destruct (for_devices_same_text tbl text BITWIG_DEVICES Htext dict_empty
              (mkWorld lines (stdout w ++ map Line banner)
                 (clipboard w) (pastes w) (files w))) as (w1 & Hw1).
  - exact BITWIG_DEVICES_NoDup.
  - intros n _ [].
  - exact Hclip.
  - rewrite BITWIG_DEVICES_length. exact Hlen.
  - rewrite BITWIG_DEVICES_length. exact Hskip.
  - exists w1. exact Hw1.
Qed.

(** The operator presses Enter 25 times without copying anything new. *)
Lemma unchanged_clipboard_fills_every_device_witness :
  exists w1,
    collect no_table (fresh_world enter_lines clip_padded)
    = Ret (map (fun n => (n, strip (lit "  " ++ uuid_example ++ [10])))
             BITWIG_DEVICES) w1.
Proof.
  apply (unchanged_clipboard_fills_every_device no_table
           (fresh_world enter_lines clip_padded) [] (repeat [] 24)
           (lit "  " ++ uuid_example ++ [10])).
  - reflexivity.
  - vm_compute. lia.
  - vm_compute. repeat constructor.
  - intros k. reflexivity.
  - vm_compute. reflexivity.
Defined.

(** ** Which lines skip *)

Lemma ascii_lower_is_s (c : N) : ascii_lower c = 115 <-> c = 115 \/ c = 83.
Proof.
  unfold ascii_lower.
  destruct ((65 <=? c) && (c <=? 90)) eqn:H.
  - apply andb_true_iff in H. destruct H as [H1 H2].
    apply N.leb_le in H1, H2. lia.
  - apply andb_false_iff in H. destruct H as [H|H]; apply N.leb_gt in H; lia.
Qed.

(** X7: for a line of ASCII characters the skip test of line 63 holds for
    exactly two lines, [s] and [S]: a blank before or after the letter, or a
    longer word such as [skip], does not skip the item. *)
Theorem ascii_line_skips_iff (tbl : lower_table) (line : pystr) :
  Forall (fun c => c < 128) line ->
  (is_skip tbl line = true <-> line = lit "s" \/ line = lit "S").
Proof.
  intros Hascii. unfold is_skip, str_lower.
  destruct line as [|c [|c2 rest]].
  - cbn. split; [discriminate | intros [H|H]; discriminate H].
  - inversion Hascii as [|? ? Hc _]; subst. apply N.ltb_lt in Hc.
    cbn [lower_from]. rewrite Hc. cbn [app str_eqb lit map list_ascii_of_string].
    change (N_of_ascii "s") with 115. change (N_of_ascii "S") with 83.
    rewrite andb_true_r, N.eqb_eq, ascii_lower_is_s.
    split.
    + intros [-> | ->]; [now left | now right].
    + intros [H|H]; inversion H; [now left | now right].
  - inversion Hascii as [|? ? Hc Hrest]; subst.
    inversion Hrest as [|? ? Hc2 _]; subst.
    apply N.ltb_lt in Hc, Hc2.
    cbn [lower_from]. rewrite Hc, Hc2. cbn [app str_eqb lit map list_ascii_of_string].
    rewrite andb_false_r. split; [discriminate | intros [H|H]; discriminate H].
Qed.

(** The line [" s"]: ASCII, and not one of the two. *)
Lemma ascii_line_skips_iff_witness :
  is_skip no_table (lit " s") = true <-> lit " s" = lit "s" \/ lit " s" = lit "S".
Proof.
  apply (ascii_line_skips_iff no_table (lit " s")).
  repeat constructor.
Defined.

(** ** The characters of the output file *)

Lemma hex_digit_plain (n : N) : n < 16 -> is_plain (hex_digit n) = true.
Proof.
  intros H. unfold hex_digit, is_plain.
  destruct (n <? 10) eqn:Hn.
  - apply N.ltb_lt in Hn.
    assert (H1 : (32 <=? 48 + n) = true) by (apply N.leb_le; lia).
    assert (H2 : (48 + n <=? 126) = true) by (apply N.leb_le; lia).
    now rewrite H1, H2.
  - apply N.ltb_ge in Hn.
    assert (H1 : (32 <=? 87 + n) = true) by (apply N.leb_le; lia).
    assert (H2 : (87 + n <=? 126) = true) by (apply N.leb_le; lia).
    now rewrite H1, H2.
Qed.

Lemma backslash_u_plain (n : N) :
  Forall (fun c => is_plain c = true) (backslash_u n).
Proof.
  unfold backslash_u, hex4.
  repeat constructor; apply hex_digit_plain; apply N.mod_lt; discriminate.
Qed.

Lemma escape_char_plain (c : N) :
  Forall (fun x => is_plain x = true) (escape_char c).
Proof.
  unfold escape_char.
  repeat match goal with
         | |- context [if ?b =? ?k then _ else _] =>
             destruct (b =? k); [repeat constructor|]
         end.
  destruct ((32 <=? c) && (c <=? 126)) eqn:Hp.
  - constructor; [|constructor]. unfold is_plain. now rewrite Hp.
  - destruct (c <? 65536).
    + apply backslash_u_plain.
    + apply Forall_app. split; apply backslash_u_plain.
Qed.

Lemma encode_basestring_ascii_plain (s : pystr) :
  Forall (fun c => is_plain c = true) (encode_basestring_ascii s).
Proof.
  unfold encode_basestring_ascii. apply Forall_app. split; [repeat constructor|].
  apply Forall_app. split; [|repeat constructor].
  induction s as [|c s IH]; simpl; [constructor|].
  apply Forall_app. split; [apply escape_char_plain | exact IH].
Qed.

Lemma json_item_plain (kv : pystr * pystr) :
  Forall (fun c => is_plain c = true) (json_item kv).
Proof.
  unfold json_item. apply Forall_app. split; [apply encode_basestring_ascii_plain|].
  apply Forall_app. split; [repeat constructor | apply encode_basestring_ascii_plain].
Qed.

Lemma json_items_plain (d : pydict) :
  Forall (fun c => is_plain c = true) (json_items d).
Proof.
  induction d as [|kv d IH]; [constructor|].
  cbn [json_items]. destruct d as [|kv' d']; [apply json_item_plain|].
  apply Forall_app. split; [apply json_item_plain|].
  apply Forall_app. split; [repeat constructor|].
  apply Forall_app. split; [repeat constructor | exact IH].
Qed.

(** X8: whatever code points the captured values hold, the text that
    [json.dump] writes to the output file consists of printable ASCII
    characters and line feeds only (the default [ensure_ascii] escapes
    everything else). *)
Theorem output_text_is_plain_ascii (d : pydict) :
  Forall (fun c => is_plain c = true) (json_dumps d).
Proof.
  unfold json_dumps. destruct d as [|kv d]; [repeat constructor|].
  apply Forall_app. split; [repeat constructor|].
  apply Forall_app. split; [repeat constructor|].
  apply Forall_app. split; [apply json_items_plain|].
  repeat constructor.
Qed.

(** A value with a quote, a line feed, an accented letter and an emoji: the
    quote and the line feed get a backslash, the letter one [\u] escape and
    the emoji a surrogate pair of two. *)
Example json_dumps_escapes :
  json_dumps [(lit "k", [34; 10; 233; 128512])]
  = [123; 10] ++ lit "  " ++ [34] ++ lit "k" ++ [34] ++ lit ": " ++ [34]
      ++ [92; 34] ++ lit "\n" ++ lit "\u00e9" ++ lit "\ud83d\ude00"
      ++ [34] ++ [10; 125].
Proof. reflexivity. Qed.

(** ** The report and the console *)








(** With a clipboard text that UTF-8 cannot encode, 24 items are stored and
    reported, and no success line is shown. *)
Example surrogate_run_report :
  exists d w1,
    collect no_table (fresh_world enter_lines clip_surrogate_uuid) = Ret d w1
    /\ List.length d = 24%nat
    /\ captured_lines
         (stdout (world_of (main no_table
                              (fresh_world enter_lines clip_surrogate_uuid))))
       = 0%nat.
Proof.
  eexists. eexists. split; [vm_compute; reflexivity|]. split; vm_compute; reflexivity.
Qed.

(** ** A capture that the console cannot show *)



(** ** The prints that cannot fail

    Every text the script prints outside lines 72 and 74 is free of
    surrogates, so that [print] on it does what [print_plain] does. *)

Lemma is_plain_not_surrogate (c : N) : is_plain c = true -> is_surrogate c = false.
Proof.
  unfold is_plain, is_surrogate. intros H.
  apply Bool.orb_true_iff in H. destruct H as [H | H].
  - apply Bool.andb_true_iff in H. destruct H as [_ H]. apply N.leb_le in H.
    apply Bool.andb_false_iff. left. apply N.leb_gt. lia.
  - apply N.eqb_eq in H. now subst c.
Qed.

Lemma plain_has_no_surrogate (s : pystr) :
  Forall (fun c => is_plain c = true) s -> has_surrogate s = false.
Proof.
  induction 1 as [|c s Hc _ IH]; [reflexivity|].
  unfold has_surrogate. cbn [existsb].
  rewrite (is_plain_not_surrogate c Hc). exact IH.
Qed.

Lemma digits_no_surrogate (u : Decimal.uint) : has_surrogate (digits u) = false.
Proof. induction u; [reflexivity | exact IHu ..]. Qed.

Lemma print_of_plain (s : pystr) (w : world) :
  has_surrogate s = false -> print s w = print_plain s w.
Proof. intros H. unfold print, print_plain. now rewrite (surrogate_run_none s 0 H). Qed.

Lemma catalog_lines_no_surrogate (name : pystr) :
  In name BITWIG_DEVICES ->
  has_surrogate (msg_device name) = false
  /\ has_surrogate (msg_step1 name) = false
  /\ has_surrogate (msg_skipped name) = false.
Proof.
  intros Hin.
  assert (Hall : forallb (fun n => negb (has_surrogate (msg_device n))
                                   && negb (has_surrogate (msg_step1 n))
                                   && negb (has_surrogate (msg_skipped n)))
                   BITWIG_DEVICES = true) by (vm_compute; reflexivity).
  rewrite forallb_forall in Hall. specialize (Hall name Hin).
  apply Bool.andb_true_iff in Hall. destruct Hall as [Hall H3].
  apply Bool.andb_true_iff in Hall. destruct Hall as [H1 H2].
  repeat split; now apply Bool.negb_true_iff.
Qed.

Lemma encode_error_text_no_surrogate (bad start stop : N) :
  has_surrogate (msg_error (UnicodeEncodeError bad start stop)) = false.
Proof.
  unfold msg_error, str_of_exn, str_of_int.
  destruct (stop =? start + 1);
    rewrite !has_surrogate_app, ?digits_no_surrogate,
      ?(plain_has_no_surrogate _ (backslash_u_plain bad));
    reflexivity.
Qed.

Lemma msg_saved_no_surrogate (n : N) : has_surrogate (msg_saved n) = false.
Proof.
  unfold msg_saved, str_of_int.
  rewrite !has_surrogate_app, digits_no_surrogate. reflexivity.
Qed.

Lemma json_dumps_no_surrogate (d : pydict) : has_surrogate (json_dumps d) = false.
Proof.
  apply plain_has_no_surrogate.
  unfold json_dumps. destruct d as [|kv d]; [repeat constructor|].
  apply Forall_app. split; [repeat constructor|].
  apply Forall_app. split; [repeat constructor|].
  apply Forall_app. split; [apply json_items_plain|].
  repeat constructor.
Qed.

(** X11: the texts the script prints outside lines 72 and 74 hold no
    surrogate code point, whatever the inputs: the banner, the header lines
    and the skip line of every catalog name, the report line for every
    count, the JSON text of every mapping, and the handler's line for a
    [UnicodeEncodeError]; and on a text without a surrogate [print] writes
    the line and raises nothing. *)
Theorem own_texts_are_encodable :
  Forall (fun s => has_surrogate s = false) banner
  /\ (forall name, In name BITWIG_DEVICES ->
        has_surrogate (msg_device name) = false
        /\ has_surrogate (msg_step1 name) = false
        /\ has_surrogate (msg_skipped name) = false)
  /\ has_surrogate msg_step2 = false
  /\ has_surrogate msg_step3 = false
  /\ (forall bad start stop,
        has_surrogate (msg_error (UnicodeEncodeError bad start stop)) = false)
  /\ (forall n, has_surrogate (msg_saved n) = false)
  /\ (forall d, has_surrogate (json_dumps d) = false)
  /\ (forall s w, has_surrogate s = false ->
        print s w = Ret tt (emit (Line s) w)).
Proof.
  split; [|split; [|split; [|split; [|split; [|split; [|split]]]]]].
  - apply Forall_forall. intros s Hs.
    assert (Hall : forallb (fun s => negb (has_surrogate s)) banner = true)
      by (vm_compute; reflexivity).
    rewrite forallb_forall in Hall. now apply Bool.negb_true_iff, Hall.
  - exact catalog_lines_no_surrogate.
  - vm_compute. reflexivity.
  - vm_compute. reflexivity.
  - exact encode_error_text_no_surrogate.
  - exact msg_saved_no_surrogate.
  - exact json_dumps_no_surrogate.
  - intros s w H. now rewrite (print_of_plain s w H).
Qed.
